(** * Validated Person records: a shallow embedding of [main.py]

    [main.py] defines one record shape (name, age, email) four times, each
    time with another validation idiom (dataclass, pydantic, marshmallow,
    attrs), and a decorator [type_check].  This file embeds the classes and
    the decorator as Rocq functions and proves what they do.

    Conventions.
    - A Python call that may raise returns a [result]: [Ok v] or [Raise e].
    - The dataclass and attrs classes do not look at the types of their
      fields, so their fields hold arbitrary Python values ([PyVal]).
    - The pydantic and marshmallow classes are modelled on inputs of the
      declared types (text, integer, text).  Their e-mail grammars live in
      the libraries, not in [main.py]: they are parameters here. *)

From Stdlib Require Import ZArith List String Ascii Bool Lia DecimalString.
Import ListNotations.
Open Scope string_scope.
Open Scope Z_scope.

(** ** Python values, truth, text *)

Inductive PyVal : Type :=
| VNone
| VBool (b : bool)
| VInt (z : Z)
| VStr (s : string).

Inductive PyType : Type := TObject | TNoneType | TBool | TInt | TStr.

(** The exceptions that [main.py] raises itself or lets its libraries
    raise.  A pydantic error lists one entry per failed field; a marshmallow
    error maps a field name (or ["_schema"]) to its messages. *)
Record ErrorDetails : Type := mkError
  { loc : string;            (* the field *)
    type : string;           (* pydantic's error type *)
    cause : option string }. (* message of the exception a validator of main.py raised *)

Inductive PyExc : Type :=
| ValueError (msg : string)
| TypeError (msg : string)
| ReError (msg : string)
| PydanticValidationError (errors : list ErrorDetails)
| MarshmallowValidationError (messages : list (string * list string)).

Inductive result (A : Type) : Type :=
| Ok (a : A)
| Raise (e : PyExc).
Arguments Ok {A} a.
Arguments Raise {A} e.

(** [bool(v)]: what [not v] negates. *)
Definition truthy (v : PyVal) : bool :=
  match v with
  | VNone => false
  | VBool b => b
  | VInt z => negb (z =? 0)
  | VStr s => negb (s =? "")%string
  end.

(** [str(z)] for an integer: decimal digits, a leading minus sign. *)
Definition str_of_int (z : Z) : string := NilZero.string_of_int (Z.to_int z).

(** [str(v)], which is also what an f-string field [{v}] expands to. *)
Definition py_str (v : PyVal) : string :=
  match v with
  | VNone => "None"
  | VBool true => "True"
  | VBool false => "False"
  | VInt z => str_of_int z
  | VStr s => s
  end.

Definition type_of (v : PyVal) : PyType :=
  match v with
  | VNone => TNoneType
  | VBool _ => TBool
  | VInt _ => TInt
  | VStr _ => TStr
  end.

Definition PyType_eqb (a b : PyType) : bool :=
  match a, b with
  | TObject, TObject | TNoneType, TNoneType | TBool, TBool
  | TInt, TInt | TStr, TStr => true
  | _, _ => false
  end.

(** [issubclass]: every type derives from [object], [bool] from [int]. *)
Definition issubclass (a b : PyType) : bool :=
  PyType_eqb a b || PyType_eqb b TObject || (PyType_eqb a TBool && PyType_eqb b TInt).

Definition isinstance (v : PyVal) (t : PyType) : bool := issubclass (type_of v) t.

(** An argument left out of a call takes the default of its parameter. *)
Definition or_default (given : option PyVal) (default : PyVal) : PyVal :=
  match given with
  | Some v => v
  | None => default
  end.

(** Attributes of a Person instance, for assignment [obj.attr = v]. *)
Inductive Attr : Type := a_name | a_age | a_email.

(** ** [PersonWithDataclass] (lines 26-40) *)

Module PersonWithDataclass.

Record t : Type := mk { name : PyVal; age : PyVal; email : PyVal }.

Definition __name__ : string := "PersonWithDataclass".

(** Lines 32-34. *)
Definition __post_init__ (self : t) : result unit :=
  if negb (truthy (name self))
  then Raise (ValueError "name must not be empty")
  else Ok tt.

(** The [__init__] that [@dataclass] generates from lines 28-30: store
    the three fields ([age] and [email] default to [0] and ['']), then
    call [__post_init__].  The annotations are not enforced. *)
Definition __init__ (name : PyVal) (age email : option PyVal) : result t :=
  let self := mk name (or_default age (VInt 0)) (or_default email (VStr "")) in
  match __post_init__ self with
  | Ok _ => Ok self
  | Raise e => Raise e
  end.

(** Lines 36-37. *)
Definition __str__ (self : t) : string :=
  py_str (name self) ++ " " ++ py_str (age self) ++ " " ++ py_str (email self).

(** Lines 39-40, for an instance of the class itself. *)
Definition __repr__ (self : t) : string :=
  __name__ ++ "(" ++ py_str (name self) ++ " " ++ py_str (age self) ++ " "
           ++ py_str (email self) ++ ")".

(** [@dataclass] is used without [frozen=True]: assignment to an
    attribute stores the value, and nothing is validated again. *)
Definition __setattr__ (self : t) (a : Attr) (v : PyVal) : t :=
  match a with
  | a_name => mk v (age self) (email self)
  | a_age => mk (name self) v (email self)
  | a_email => mk (name self) (age self) v
  end.

End PersonWithDataclass.

(** ** [repr] of Python values, as the generated [__repr__] of attrs uses it *)

Definition char_dquote : ascii := "034"%char.
Definition char_squote : ascii := "039"%char.
Definition char_backslash : ascii := "092"%char.

Definition hex_digit (n : nat) : ascii :=
  nth n (list_ascii_of_string "0123456789abcdef") "0"%char.

Fixpoint contains (c : ascii) (s : string) : bool :=
  match s with
  | EmptyString => false
  | String d s' => (c =? d)%char || contains c s'
  end.

(** One character inside the quotes of [repr(s)]. *)
Definition escape_char (quote c : ascii) : string :=
  if ((c =? quote) || (c =? char_backslash))%char then String char_backslash (String c "")
  else if (c =? "010")%char then String char_backslash "n"
  else if (c =? "013")%char then String char_backslash "r"
  else if (c =? "009")%char then String char_backslash "t"
  else if ((nat_of_ascii c <? 32) || (nat_of_ascii c =? 127))%nat
       then String char_backslash
              (String "x" (String (hex_digit (nat_of_ascii c / 16))
                             (String (hex_digit (nat_of_ascii c mod 16)) "")))
  else String c "".

Fixpoint escape (quote : ascii) (s : string) : string :=
  match s with
  | EmptyString => ""
  | String c s' => escape_char quote c ++ escape quote s'
  end.

(** [repr(s)] for text: single quotes, unless the text has a single quote
    and no double quote.  Exact on ASCII text; bytes above 127 are kept as
    they are. *)
Definition repr_str (s : string) : string :=
  let quote := if contains char_squote s && negb (contains char_dquote s)
               then char_dquote else char_squote in
  String quote (escape quote s ++ String quote "").

Definition py_repr (v : PyVal) : string :=
  match v with
  | VStr s => repr_str s
  | _ => py_str v
  end.

(** ** [PersonWithAttrs] (lines 81-93) *)

Module PersonWithAttrs.

Record t : Type := mk { name : PyVal; age : PyVal; email : PyVal }.

Definition __name__ : string := "PersonWithAttrs".

(** Lines 87-90, the validator of [name]. *)
Definition validate_name (value : PyVal) : result unit :=
  if negb (truthy value)
  then Raise (ValueError "name must not be empty")
  else Ok tt.

(** The [__init__] that [@attr.s] generates from lines 83-85: store the
    three fields ([age] and [email] default to [0] and ['']), then run the
    validators; only [name] has one.  [type=] is metadata, not a check. *)
Definition __init__ (name : PyVal) (age email : option PyVal) : result t :=
  let self := mk name (or_default age (VInt 0)) (or_default email (VStr "")) in
  match validate_name name with
  | Ok _ => Ok self
  | Raise e => Raise e
  end.

(** Lines 92-93. *)
Definition __str__ (self : t) : string :=
  py_str (name self) ++ " " ++ py_str (age self) ++ " " ++ py_str (email self).

(** The class body defines no [__repr__]; [@attr.s] generates one that
    lists each attribute as [attr=repr(value)]. *)
Definition __repr__ (self : t) : string :=
  __name__ ++ "(name=" ++ py_repr (name self) ++ ", age=" ++ py_repr (age self)
           ++ ", email=" ++ py_repr (email self) ++ ")".

(** [@attr.s] is used without [frozen=True]: assignment to an attribute
    stores the value; validators run in [__init__] only. *)
Definition __setattr__ (self : t) (a : Attr) (v : PyVal) : t :=
  match a with
  | a_name => mk v (age self) (email self)
  | a_age => mk (name self) v (email self)
  | a_email => mk (name self) (age self) v
  end.

End PersonWithAttrs.

(** ** [PersonWithPydantic] (lines 44-59) *)

Module PersonWithPydantic.

Record t : Type := mk { name : string; age : Z; email : string }.

Definition __name__ : string := "PersonWithPydantic".

(** Lines 49-53. *)
Definition name_must_not_be_empty (v : string) : result string :=
  if (v =? "")%string
  then Raise (ValueError "name must not be empty")
  else Ok v.

(** Line 45 with its field validator: a failure becomes an entry of the
    validation error. *)
Definition validate_name (v : string) : list ErrorDetails + string :=
  match name_must_not_be_empty v with
  | Ok v' => inr v'
  | Raise (ValueError msg) => inl [mkError "name" "value_error" (Some msg)]
  | Raise _ => inl [mkError "name" "value_error" None]
  end.

(** Line 46: [PositiveInt] is an integer greater than zero. *)
Definition validate_age (v : Z) : list ErrorDetails + Z :=
  if 0 <? v then inr v else inl [mkError "age" "greater_than" None].

Section Library.

(** pydantic's [EmailStr]: the address as the library stores it, or
    [None] when the library rejects the text. *)
Variable EmailStr : string -> option string.

(** Line 47. *)
Definition validate_email (v : string) : list ErrorDetails + string :=
  match EmailStr v with
  | Some v' => inr v'
  | None => inl [mkError "email" "value_error" None]
  end.

Definition errors_of {A : Type} (r : list ErrorDetails + A) : list ErrorDetails :=
  match r with
  | inl errs => errs
  | inr _ => []
  end.

(** [PersonWithPydantic(name=.., age=.., email=..)]: every field is
    validated, in the order of lines 45-47, and all failures are
    reported together. *)
Definition __init__ (name : string) (age : Z) (email : string) : result t :=
  match validate_name name, validate_age age, validate_email email with
  | inr n, inr a, inr e => Ok (mk n a e)
  | rn, ra, re =>
      Raise (PydanticValidationError (errors_of rn ++ errors_of ra ++ errors_of re))
  end.

End Library.

(** Lines 55-56. *)
Definition __str__ (self : t) : string :=
  name self ++ " " ++ str_of_int (age self) ++ " " ++ email self.

(** Lines 58-59, for an instance of the class itself. *)
Definition __repr__ (self : t) : string :=
  __name__ ++ "(" ++ name self ++ " " ++ str_of_int (age self) ++ " "
           ++ email self ++ ")".

End PersonWithPydantic.

(** ** [PersonWithMarshmallow] (lines 63-71)

    A schema: [PersonWithMarshmallow().load(data)] validates a mapping with
    the keys [name], [age], [email] and returns the validated mapping.  The
    [__str__] and [__repr__] of lines 73-77 belong to the schema object, not
    to what [load] returns, and are not modelled. *)

Module PersonWithMarshmallow.

(** The mapping that [load] takes and returns. *)
Record Data : Type := mkData { name : string; age : Z; email : string }.

(** Line 64: [validate.Length(min=1)], with the library's message. *)
Definition validate_name_field (v : string) : list string :=
  if (String.length v <? 1)%nat then ["Shorter than minimum length 1."] else [].

(** Lines 68-71; the error of a schema validator is filed under ["_schema"]. *)
Definition validate_age (data : Data) : result unit :=
  if age data <=? 0
  then Raise (MarshmallowValidationError [("_schema", ["age must be positive"])])
  else Ok tt.

Definition entry (key : string) (msgs : list string) : list (string * list string) :=
  match msgs with
  | [] => []
  | _ => [(key, msgs)]
  end.

Section Library.

(** marshmallow's [validate.Email]: does the library accept the text? *)
Variable Email : string -> bool.

(** Line 66, with the library's message. *)
Definition validate_email_field (v : string) : list string :=
  if Email v then [] else ["Not a valid email address."].

(** The field checks of lines 64-66; an integer [age] passes line 65. *)
Definition field_errors (data : Data) : list (string * list string) :=
  entry "name" (validate_name_field (name data))
  ++ entry "email" (validate_email_field (email data)).

(** [load]: all fields are checked; the schema validator of line 68 runs
    only when no field failed ([validates_schema] skips on field errors
    unless told otherwise). *)
Definition load (data : Data) : result Data :=
  match field_errors data with
  | [] =>
      match validate_age data with
      | Ok _ => Ok data
      | Raise e => Raise e
      end
  | errs => Raise (MarshmallowValidationError errs)
  end.

End Library.

End PersonWithMarshmallow.

(** ** [type_check] (lines 10-22) *)

Module TypeCheck.

Section Decorator.

(** What a decorated function may read and change when it runs. *)
Variable World : Type.

(** [re.match(pattern, text)]: did it match, or did [re] raise? *)
Variable re_match : string -> string -> result bool.

Definition M (A : Type) : Type := World -> result A * World.

Definition raise {A : Type} (e : PyExc) : M A := fun w => (Raise e, w).

Definition Kwargs : Type := list (string * PyVal).

Record PyFunc : Type := mkFunc
  { func_name : string;
    call : list PyVal -> Kwargs -> M PyVal }.

(** Line 14: [all(isinstance(arg, typ) for arg, typ in zip(args, types))]. *)
Definition args_match (args : list PyVal) (types : list PyType) : bool :=
  forallb (fun p => isinstance (fst p) (snd p)) (combine args types).

(** Line 16: [not follows or not re.match(follows, func.__name__)]. *)
Definition name_rejected (follows : option string) (name : string) : result bool :=
  match follows with
  | None => Ok true
  | Some pattern =>
      if (pattern =? "")%string then Ok true
      else match re_match pattern name with
           | Ok matched => Ok (negb matched)
           | Raise e => Raise e
           end
  end.

(** Lines 13-18. *)
Definition wrapper (follows : option string) (types : list PyType) (func : PyFunc)
    (args : list PyVal) (kwargs : Kwargs) : M PyVal :=
  if negb (args_match args types)
  then raise (TypeError "Arguments must match specified types")
  else match name_rejected follows (func_name func) with
       | Raise e => raise e
       | Ok true => raise (ValueError "Function name must match follows pattern")
       | Ok false => call func args kwargs
       end.

(** The ways to call [type_check(follows=None, *types)]: [follows] is the
    first positional parameter, so [types] can only be given after it. *)
Inductive Call : Type :=
| call_default                                               (* type_check() *)
| call_keyword (follows : option string)                     (* type_check(follows=f) *)
| call_positional (follows : option string) (types : list PyType). (* type_check(f, t1, ..) *)

Definition follows_of (c : Call) : option string :=
  match c with
  | call_default => None
  | call_keyword f => f
  | call_positional f _ => f
  end.

Definition types_of (c : Call) : list PyType :=
  match c with
  | call_positional _ ts => ts
  | _ => []
  end.

(** Lines 10-22: [type_check(...)(func)]; [@wraps] keeps the name. *)
Definition type_check (c : Call) (func : PyFunc) : PyFunc :=
  mkFunc (func_name func) (wrapper (follows_of c) (types_of c) func).

End Decorator.

End TypeCheck.

(** ** The spec's vocabulary *)

(** The three failures the spec names. *)
Inductive SpecError : Type := EmptyNameError | NonPositiveAgeError | InvalidEmailFormatError.

Definition field_of (k : SpecError) : string :=
  match k with
  | EmptyNameError => "name"
  | NonPositiveAgeError => "age"
  | InvalidEmailFormatError => "email"
  end.

(** How an exception of the code names the offending field: by its message
    ([ValueError]), by the [loc] of an entry (pydantic), by a key of the
    messages (marshmallow; the age check is filed under ["_schema"]). *)
Definition reports (e : PyExc) (k : SpecError) : bool :=
  match e with
  | ValueError msg =>
      match k with
      | EmptyNameError => (msg =? "name must not be empty")%string
      | _ => false
      end
  | PydanticValidationError errs =>
      existsb (fun d => (loc d =? field_of k)%string) errs
  | MarshmallowValidationError msgs =>
      existsb (fun p =>
                 (fst p =? field_of k)%string
                 || match k with
                    | NonPositiveAgeError =>
                        (fst p =? "_schema")%string
                        && existsb (String.eqb "age must be positive") (snd p)
                    | _ => false
                    end) msgs
  | _ => false
  end.

(** A creation failed with the failure [k]. *)
Definition fails_with {A : Type} (r : result A) (k : SpecError) : Prop :=
  exists e, r = Raise e /\ reports e k = true.

(** Space, tab, newline, vertical tab, form feed, carriage return. *)
Definition is_space (c : ascii) : bool :=
  (c =? " ")%char || ((9 <=? nat_of_ascii c) && (nat_of_ascii c <=? 13))%nat.

(** Empty, or nothing but white space. *)
Fixpoint blank (s : string) : bool :=
  match s with
  | EmptyString => true
  | String c s' => is_space c && blank s'
  end.





(** Stand-ins for the libraries' e-mail checks, to run the pydantic and
    marshmallow models on concrete inputs: any text with an [@] passes and
    is stored as it is. *)
Definition sample_EmailStr (e : string) : option string :=
  if contains "@" e then Some e else None.

Definition sample_Email (e : string) : bool := contains "@" e.

(** Stand-ins that follow the libraries more closely.  [normalising_EmailStr]
    stores the domain in lower case, as [EmailStr] does, for the one address
    it knows.  [shape_EmailStr] rejects what lacks an [@] or a dotted domain.
    [whitelisting_Email] does the same but lets the domain [localhost]
    through, as marshmallow's white list does. *)
Definition normalising_EmailStr (e : string) : option string :=
  if (e =? "a@EXAMPLE.com")%string then Some "a@example.com" else sample_EmailStr e.



(** * Properties *)

(** ** Running the models: the entry point of lines 96-104 *)

Example str_of_int_samples :
  str_of_int 30 = "30" /\ str_of_int 0 = "0" /\ str_of_int (-1) = "-1".
Proof. repeat split. Qed.

Example dataclass_demo :
  match PersonWithDataclass.__init__ (VStr "John") (Some (VInt 30))
          (Some (VStr "X7Q9u@example.com")) with
  | Ok p => PersonWithDataclass.__str__ p
  | Raise _ => "raised"
  end = "John 30 X7Q9u@example.com".
Proof. reflexivity. Qed.

Example attrs_demo :
  match PersonWithAttrs.__init__ (VStr "John") (Some (VInt 30))
          (Some (VStr "X7Q9u@example.com")) with
  | Ok p => PersonWithAttrs.__str__ p
  | Raise _ => "raised"
  end = "John 30 X7Q9u@example.com".
Proof. reflexivity. Qed.

Example pydantic_demo :
  match PersonWithPydantic.__init__ sample_EmailStr "John" 30 "X7Q9u@example.com" with
  | Ok p => PersonWithPydantic.__str__ p
  | Raise _ => "raised"
  end = "John 30 X7Q9u@example.com".
Proof. reflexivity. Qed.

Example marshmallow_demo :
  PersonWithMarshmallow.load sample_Email
    (PersonWithMarshmallow.mkData "John" 30 "X7Q9u@example.com")
  = Ok (PersonWithMarshmallow.mkData "John" 30 "X7Q9u@example.com").
Proof. reflexivity. Qed.

(** ** Shared facts *)

Lemma append_assoc (x y z : string) : ((x ++ y) ++ z = x ++ (y ++ z))%string.
Proof.
  induction x as [|c x IH]; simpl; [reflexivity | now rewrite IH].
Qed.

Lemma truthy_text (n : string) : n <> "" -> truthy (VStr n) = true.
Proof.
  intros Hn. simpl. apply negb_true_iff. now apply String.eqb_neq.
Qed.

Lemma nonempty_length (n : string) : n <> "" -> (String.length n <? 1)%nat = false.
Proof.
  destruct n as [|c n']; [congruence | reflexivity].
Qed.

Lemma dataclass_init_ok (name : PyVal) (age email : option PyVal) :
  truthy name = true ->
  PersonWithDataclass.__init__ name age email
  = Ok (PersonWithDataclass.mk name (or_default age (VInt 0)) (or_default email (VStr ""))).
Proof.
  intros Ht. unfold PersonWithDataclass.__init__, PersonWithDataclass.__post_init__.
  simpl. now rewrite Ht.
Qed.

Lemma attrs_init_ok (name : PyVal) (age email : option PyVal) :
  truthy name = true ->
  PersonWithAttrs.__init__ name age email
  = Ok (PersonWithAttrs.mk name (or_default age (VInt 0)) (or_default email (VStr ""))).
Proof.
  intros Ht. unfold PersonWithAttrs.__init__, PersonWithAttrs.validate_name.
  now rewrite Ht.
Qed.

Lemma dataclass_init_falsy (name : PyVal) (age email : option PyVal) :
  truthy name = false ->
  PersonWithDataclass.__init__ name age email = Raise (ValueError "name must not be empty").
Proof.
  intros Ht. unfold PersonWithDataclass.__init__, PersonWithDataclass.__post_init__.
  simpl. now rewrite Ht.
Qed.

Lemma attrs_init_falsy (name : PyVal) (age email : option PyVal) :
  truthy name = false ->
  PersonWithAttrs.__init__ name age email = Raise (ValueError "name must not be empty").
Proof.
  intros Ht. unfold PersonWithAttrs.__init__, PersonWithAttrs.validate_name.
  now rewrite Ht.
Qed.

Section PydanticFacts.

Variable EmailStr : string -> option string.

Lemma pydantic_validate_name_ok (n : string) :
  n <> "" -> PersonWithPydantic.validate_name n = inr n.
Proof.
  intros Hn. unfold PersonWithPydantic.validate_name,
    PersonWithPydantic.name_must_not_be_empty.
  apply String.eqb_neq in Hn. now rewrite Hn.
Qed.

Lemma pydantic_validate_age_ok (a : Z) :
  0 < a -> PersonWithPydantic.validate_age a = inr a.
Proof.
  intros Ha. unfold PersonWithPydantic.validate_age.
  apply Z.ltb_lt in Ha. now rewrite Ha.
Qed.

(** The stored address is the one the library returns. *)
Lemma pydantic_init_ok (n : string) (a : Z) (e e' : string) :
  n <> "" -> 0 < a -> EmailStr e = Some e' ->
  PersonWithPydantic.__init__ EmailStr n a e = Ok (PersonWithPydantic.mk n a e').
Proof.
  intros Hn Ha He. unfold PersonWithPydantic.__init__.
  rewrite (pydantic_validate_name_ok n Hn), (pydantic_validate_age_ok a Ha).
  unfold PersonWithPydantic.validate_email. now rewrite He.
Qed.

(** Whatever fails, the error lists the failures of all three fields. *)
Lemma pydantic_init_raises (n : string) (a : Z) (e : string) :
  let errs := (PersonWithPydantic.errors_of (PersonWithPydantic.validate_name n)
               ++ PersonWithPydantic.errors_of (PersonWithPydantic.validate_age a)
               ++ PersonWithPydantic.errors_of (PersonWithPydantic.validate_email EmailStr e))%list in
  errs <> [] ->
  PersonWithPydantic.__init__ EmailStr n a e = Raise (PydanticValidationError errs).
Proof.
  intros errs Herrs. subst errs. unfold PersonWithPydantic.__init__.
  destruct (PersonWithPydantic.validate_name n) as [en|vn];
    destruct (PersonWithPydantic.validate_age a) as [ea|va];
    destruct (PersonWithPydantic.validate_email EmailStr e) as [ee|ve];
    try reflexivity.
  now contradiction Herrs.
Qed.

End PydanticFacts.

Section MarshmallowFacts.

Variable Email : string -> bool.

Lemma marshmallow_fields_ok (n : string) (a : Z) (e : string) :
  n <> "" -> Email e = true ->
  PersonWithMarshmallow.field_errors Email (PersonWithMarshmallow.mkData n a e) = [].
Proof.
  intros Hn He. unfold PersonWithMarshmallow.field_errors,
    PersonWithMarshmallow.validate_name_field, PersonWithMarshmallow.validate_email_field.
  simpl. now rewrite (nonempty_length n Hn), He.
Qed.

(** When a field fails, [load] raises the field errors and nothing else. *)
Lemma marshmallow_load_field_errors (data : PersonWithMarshmallow.Data) :
  PersonWithMarshmallow.field_errors Email data <> [] ->
  PersonWithMarshmallow.load Email data
  = Raise (MarshmallowValidationError (PersonWithMarshmallow.field_errors Email data)).
Proof.
  intros Hne. unfold PersonWithMarshmallow.load.
  destruct (PersonWithMarshmallow.field_errors Email data); [contradiction | reflexivity].
Qed.

Lemma marshmallow_load_fields_ok (data : PersonWithMarshmallow.Data) :
  PersonWithMarshmallow.field_errors Email data = [] ->
  PersonWithMarshmallow.load Email data
  = if PersonWithMarshmallow.age data <=? 0
    then Raise (MarshmallowValidationError [("_schema", ["age must be positive"])])
    else Ok data.
Proof.
  intros Hnil. unfold PersonWithMarshmallow.load, PersonWithMarshmallow.validate_age.
  rewrite Hnil. now destruct (PersonWithMarshmallow.age data <=? 0).
Qed.

End MarshmallowFacts.

(** ** C1: display rendering of a created record *)

(** C1, where the claim fails: an e-mail validation that stores the domain
    in lower case, as pydantic's does, accepts [a@EXAMPLE.com]; creation
    succeeds, and the display text ends in [a@example.com], not in the
    e-mail that was passed in. *)
Lemma pydantic_renders_normalised_email :
  normalising_EmailStr "a@EXAMPLE.com" = Some "a@example.com"
  /\ PersonWithPydantic.__init__ normalising_EmailStr "John" 30 "a@EXAMPLE.com"
     = Ok (PersonWithPydantic.mk "John" 30 "a@example.com")
  /\ PersonWithPydantic.__str__ (PersonWithPydantic.mk "John" 30 "a@example.com")
     = "John 30 a@example.com"
  /\ PersonWithPydantic.__str__ (PersonWithPydantic.mk "John" 30 "a@example.com")
     <> "John" ++ " " ++ str_of_int 30 ++ " " ++ "a@EXAMPLE.com".
Proof.
  repeat split. discriminate.
Qed.

(** C1, amended.  For a non-empty name [n], a positive integer age [a] and
    an e-mail [e] that the e-mail validation accepts, creation succeeds in
    the dataclass, attrs and pydantic variants and [__str__] of the record
    is the three stored values in the order name, age, e-mail, separated by
    single spaces.  In the dataclass and attrs variants that is the text
    [n a e].  In the pydantic variant it is [n a e'], where [e'] is the
    e-mail as the validation stored it: [n a e] whenever the validation
    stores the e-mail unchanged. *)
Theorem render_of_create (EmailStr : string -> option string)
    (n : string) (a : Z) (e e' : string) :
  n <> "" -> 0 < a -> EmailStr e = Some e' ->
  (exists p, PersonWithDataclass.__init__ (VStr n) (Some (VInt a)) (Some (VStr e)) = Ok p
             /\ PersonWithDataclass.__str__ p = n ++ " " ++ str_of_int a ++ " " ++ e)
  /\ (exists p, PersonWithAttrs.__init__ (VStr n) (Some (VInt a)) (Some (VStr e)) = Ok p
                /\ PersonWithAttrs.__str__ p = n ++ " " ++ str_of_int a ++ " " ++ e)
  /\ (exists p, PersonWithPydantic.__init__ EmailStr n a e = Ok p
                /\ PersonWithPydantic.__str__ p = n ++ " " ++ str_of_int a ++ " " ++ e'
                /\ (e' = e ->
                    PersonWithPydantic.__str__ p = n ++ " " ++ str_of_int a ++ " " ++ e)).
Proof.
  intros Hn Ha He. repeat split.
  - eexists. split.
    + apply dataclass_init_ok. now apply truthy_text.
    + reflexivity.
  - eexists. split.
    + apply attrs_init_ok. now apply truthy_text.
    + reflexivity.
  - eexists. split.
    + exact (pydantic_init_ok EmailStr n a e e' Hn Ha He).
    + split; [reflexivity | now intros ->].
Qed.

Lemma render_of_create_witness :
  "John" <> "" /\ 0 < 30 /\ sample_EmailStr "a@example.com" = Some "a@example.com"
  /\ (exists p, PersonWithDataclass.__init__ (VStr "John") (Some (VInt 30))
                  (Some (VStr "a@example.com")) = Ok p
                /\ PersonWithDataclass.__str__ p = "John 30 a@example.com")
  /\ (exists p, PersonWithAttrs.__init__ (VStr "John") (Some (VInt 30))
                  (Some (VStr "a@example.com")) = Ok p
                /\ PersonWithAttrs.__str__ p = "John 30 a@example.com")
  /\ (exists p, PersonWithPydantic.__init__ sample_EmailStr "John" 30 "a@example.com" = Ok p
                /\ PersonWithPydantic.__str__ p = "John 30 a@example.com"
                /\ ("a@example.com" = "a@example.com" ->
                    PersonWithPydantic.__str__ p = "John 30 a@example.com")).
Proof.
  assert (Hn : "John" <> "") by discriminate.
  assert (Ha : 0 < 30) by reflexivity.
  assert (He : sample_EmailStr "a@example.com" = Some "a@example.com") by reflexivity.
  split; [exact Hn | split; [exact Ha | split; [exact He |]]].
  exact (render_of_create sample_EmailStr "John" 30 "a@example.com" "a@example.com"
           Hn Ha He).
Defined.

(** ** C2: ages that are not positive *)

(** C2, where the claim fails: the dataclass variant creates a record with
    age [0]; no exception is raised. *)
Lemma dataclass_accepts_age_zero :
  PersonWithDataclass.__init__ (VStr "John") (Some (VInt 0)) (Some (VStr "a@example.com"))
  = Ok (PersonWithDataclass.mk (VStr "John") (VInt 0) (VStr "a@example.com"))
  /\ ~ fails_with (PersonWithDataclass.__init__ (VStr "John") (Some (VInt 0))
                     (Some (VStr "a@example.com"))) NonPositiveAgeError.
Proof.
  split; [reflexivity |].
  intros [e [Hraise _]]. discriminate Hraise.
Qed.

(** C2, amended.  In the pydantic and marshmallow variants an age [a <= 0]
    (zero included) never yields a record.  pydantic's error always has an
    entry for [age].  marshmallow raises; when name and e-mail pass their
    field checks the error is the schema error "age must be positive",
    otherwise it lists the field errors only. *)
Theorem nonpositive_age_rejected (EmailStr : string -> option string)
    (Email : string -> bool) (n : string) (a : Z) (e : string) :
  a <= 0 ->
  fails_with (PersonWithPydantic.__init__ EmailStr n a e) NonPositiveAgeError
  /\ (exists exc, PersonWithMarshmallow.load Email (PersonWithMarshmallow.mkData n a e)
                  = Raise exc)
  /\ (n <> "" -> Email e = true ->
      PersonWithMarshmallow.load Email (PersonWithMarshmallow.mkData n a e)
      = Raise (MarshmallowValidationError [("_schema", ["age must be positive"])])
      /\ fails_with (PersonWithMarshmallow.load Email (PersonWithMarshmallow.mkData n a e))
           NonPositiveAgeError).
Proof.
  intros Ha.
  assert (Hltb : (0 <? a) = false) by (apply Z.ltb_ge; exact Ha).
  assert (Hleb : (a <=? 0) = true) by (apply Z.leb_le; exact Ha).
  split; [| split].
  - eexists. split.
    + apply pydantic_init_raises.
      unfold PersonWithPydantic.validate_age. rewrite Hltb. simpl.
      destruct (PersonWithPydantic.errors_of (PersonWithPydantic.validate_name n));
        discriminate.
    + unfold PersonWithPydantic.validate_age. rewrite Hltb.
      simpl. rewrite existsb_app. simpl. apply orb_true_r.
  - destruct (PersonWithMarshmallow.field_errors Email (PersonWithMarshmallow.mkData n a e))
      as [|err errs] eqn:Hfe.
    + rewrite (marshmallow_load_fields_ok Email _ Hfe). simpl. rewrite Hleb.
      eexists. reflexivity.
    + eexists. apply marshmallow_load_field_errors. rewrite Hfe. discriminate.
  - intros Hn He.
    assert (Hload : PersonWithMarshmallow.load Email (PersonWithMarshmallow.mkData n a e)
                    = Raise (MarshmallowValidationError [("_schema", ["age must be positive"])])).
    { rewrite (marshmallow_load_fields_ok Email _ (marshmallow_fields_ok Email n a e Hn He)).
      simpl. now rewrite Hleb. }
    split; [exact Hload |].
    eexists. split; [exact Hload | reflexivity].
Qed.

Lemma nonpositive_age_rejected_witness :
  0 <= 0
  /\ fails_with (PersonWithPydantic.__init__ sample_EmailStr "John" 0 "a@example.com")
       NonPositiveAgeError
  /\ (exists exc, PersonWithMarshmallow.load sample_Email
                    (PersonWithMarshmallow.mkData "John" 0 "a@example.com") = Raise exc)
  /\ PersonWithMarshmallow.load sample_Email
       (PersonWithMarshmallow.mkData "John" 0 "a@example.com")
     = Raise (MarshmallowValidationError [("_schema", ["age must be positive"])]).
Proof.
  assert (Ha : 0 <= 0) by discriminate.
  assert (Hn : "John" <> "") by discriminate.
  assert (He : sample_Email "a@example.com" = true) by reflexivity.
  destruct (nonpositive_age_rejected sample_EmailStr sample_Email "John" 0 "a@example.com" Ha)
    as [Hp [Hm Hs]].
  split; [exact Ha | split; [exact Hp | split; [exact Hm |]]].
  exact (proj1 (Hs Hn He)).
Defined.

(** ** C3: empty and blank names *)

(** C3, where the claim fails: a name of one space is blank and still
    creates a record, in the dataclass and in the attrs variant. *)
Lemma blank_name_accepted :
  blank " " = true
  /\ PersonWithDataclass.__init__ (VStr " ") (Some (VInt 30)) (Some (VStr "a@example.com"))
     = Ok (PersonWithDataclass.mk (VStr " ") (VInt 30) (VStr "a@example.com"))
  /\ PersonWithAttrs.__init__ (VStr " ") (Some (VInt 30)) (Some (VStr "a@example.com"))
     = Ok (PersonWithAttrs.mk (VStr " ") (VInt 30) (VStr "a@example.com"))
  /\ ~ fails_with (PersonWithDataclass.__init__ (VStr " ") (Some (VInt 30))
                     (Some (VStr "a@example.com"))) EmptyNameError.
Proof.
  repeat split.
  intros [e [Hraise _]]. discriminate Hraise.
Qed.

(** C3, amended.  For the empty name creation fails with the empty-name
    failure in all four variants, whatever age and e-mail are (given, left
    to their defaults, valid or not): the dataclass and attrs variants raise
    [ValueError("name must not be empty")], the pydantic error has an entry
    for [name], the marshmallow error has messages for [name]. *)
Theorem empty_name_rejected (EmailStr : string -> option string) (Email : string -> bool)
    (age email : option PyVal) (a : Z) (e : string) :
  PersonWithDataclass.__init__ (VStr "") age email = Raise (ValueError "name must not be empty")
  /\ PersonWithAttrs.__init__ (VStr "") age email = Raise (ValueError "name must not be empty")
  /\ reports (ValueError "name must not be empty") EmptyNameError = true
  /\ fails_with (PersonWithPydantic.__init__ EmailStr "" a e) EmptyNameError
  /\ fails_with (PersonWithMarshmallow.load Email (PersonWithMarshmallow.mkData "" a e))
       EmptyNameError.
Proof.
  split; [now apply dataclass_init_falsy |].
  split; [now apply attrs_init_falsy |].
  split; [reflexivity |].
  split.
  - eexists. split.
    + apply pydantic_init_raises. discriminate.
    + reflexivity.
  - eexists. split.
    + apply marshmallow_load_field_errors. discriminate.
    + reflexivity.
Qed.

(** ** C4: e-mails without an [@] or a dotted domain *)







(** ** C5 and C9: what the dataclass and attrs variants do not check *)

(** C5. In the dataclass and attrs variants creation with a non-empty name
    returns a record for every age value, zero and negative integers
    included: the age is stored as given and never compared with zero. *)
Theorem create_ignores_age (n : string) (age : PyVal) (email : option PyVal) :
  n <> "" ->
  PersonWithDataclass.__init__ (VStr n) (Some age) email
  = Ok (PersonWithDataclass.mk (VStr n) age (or_default email (VStr "")))
  /\ PersonWithAttrs.__init__ (VStr n) (Some age) email
     = Ok (PersonWithAttrs.mk (VStr n) age (or_default email (VStr ""))).
Proof.
  intros Hn. split.
  - apply (dataclass_init_ok (VStr n) (Some age) email). now apply truthy_text.
  - apply (attrs_init_ok (VStr n) (Some age) email). now apply truthy_text.
Qed.

Lemma create_ignores_age_witness :
  "John" <> ""
  /\ PersonWithDataclass.__init__ (VStr "John") (Some (VInt (-5))) (Some (VStr "a@example.com"))
     = Ok (PersonWithDataclass.mk (VStr "John") (VInt (-5)) (VStr "a@example.com"))
  /\ PersonWithAttrs.__init__ (VStr "John") (Some (VInt (-5))) (Some (VStr "a@example.com"))
     = Ok (PersonWithAttrs.mk (VStr "John") (VInt (-5)) (VStr "a@example.com")).
Proof.
  assert (Hn : "John" <> "") by discriminate.
  split; [exact Hn |].
  exact (create_ignores_age "John" (VInt (-5)) (Some (VStr "a@example.com")) Hn).
Defined.

(** C9. [PersonWithDataclass] and [PersonWithAttrs] can be created from a
    (non-empty) name alone: the record has age [0] and the empty e-mail. *)
Theorem create_with_name_only (n : string) :
  n <> "" ->
  PersonWithDataclass.__init__ (VStr n) None None
  = Ok (PersonWithDataclass.mk (VStr n) (VInt 0) (VStr ""))
  /\ PersonWithAttrs.__init__ (VStr n) None None
     = Ok (PersonWithAttrs.mk (VStr n) (VInt 0) (VStr "")).
Proof.
  intros Hn. split.
  - apply (dataclass_init_ok (VStr n) None None). now apply truthy_text.
  - apply (attrs_init_ok (VStr n) None None). now apply truthy_text.
Qed.

Lemma create_with_name_only_witness :
  "John" <> ""
  /\ PersonWithDataclass.__init__ (VStr "John") None None
     = Ok (PersonWithDataclass.mk (VStr "John") (VInt 0) (VStr ""))
  /\ PersonWithAttrs.__init__ (VStr "John") None None
     = Ok (PersonWithAttrs.mk (VStr "John") (VInt 0) (VStr "")).
Proof.
  assert (Hn : "John" <> "") by discriminate.
  split; [exact Hn | exact (create_with_name_only "John" Hn)].
Defined.

(** ** C6: records after creation *)

(** C6, where the claim fails: a record created with valid values is
    changed by assignments to its attributes.  No exception is raised;
    afterwards the name is empty and the age negative, the check that
    creation made would now fail, and the display text shows the new
    values. *)
Lemma record_is_mutable :
  let p := PersonWithDataclass.mk (VStr "John") (VInt 30) (VStr "a@example.com") in
  let q := PersonWithAttrs.mk (VStr "John") (VInt 30) (VStr "a@example.com") in
  let p' := PersonWithDataclass.__setattr__
              (PersonWithDataclass.__setattr__ p a_name (VStr "")) a_age (VInt (-1)) in
  let q' := PersonWithAttrs.__setattr__
              (PersonWithAttrs.__setattr__ q a_name (VStr "")) a_age (VInt (-1)) in
  PersonWithDataclass.__init__ (VStr "John") (Some (VInt 30)) (Some (VStr "a@example.com"))
  = Ok p
  /\ p' = PersonWithDataclass.mk (VStr "") (VInt (-1)) (VStr "a@example.com")
  /\ PersonWithDataclass.__post_init__ p' = Raise (ValueError "name must not be empty")
  /\ PersonWithDataclass.__str__ p = "John 30 a@example.com"
  /\ PersonWithDataclass.__str__ p' = " -1 a@example.com"
  /\ PersonWithAttrs.__init__ (VStr "John") (Some (VInt 30)) (Some (VStr "a@example.com"))
     = Ok q
  /\ q' = PersonWithAttrs.mk (VStr "") (VInt (-1)) (VStr "a@example.com")
  /\ PersonWithAttrs.validate_name (PersonWithAttrs.name q')
     = Raise (ValueError "name must not be empty")
  /\ PersonWithAttrs.__str__ q' = " -1 a@example.com".
Proof. repeat split. Qed.

(** What [__init__] returns passed the name check. *)
Lemma dataclass_created_valid (name : PyVal) (age email : option PyVal)
    (p : PersonWithDataclass.t) :
  PersonWithDataclass.__init__ name age email = Ok p ->
  PersonWithDataclass.__post_init__ p = Ok tt.
Proof.
  unfold PersonWithDataclass.__init__.
  destruct (PersonWithDataclass.__post_init__ _) as [[]|exc] eqn:Hpost; [| discriminate].
  intros Hp. injection Hp as <-. exact Hpost.
Qed.

Lemma attrs_created_valid (name : PyVal) (age email : option PyVal)
    (q : PersonWithAttrs.t) :
  PersonWithAttrs.__init__ name age email = Ok q ->
  PersonWithAttrs.validate_name (PersonWithAttrs.name q) = Ok tt.
Proof.
  unfold PersonWithAttrs.__init__.
  destruct (PersonWithAttrs.validate_name name) as [[]|exc] eqn:Hval; [| discriminate].
  intros Hq. injection Hq as <-. exact Hval.
Qed.

Lemma post_init_ok_truthy (p : PersonWithDataclass.t) :
  PersonWithDataclass.__post_init__ p = Ok tt -> truthy (PersonWithDataclass.name p) = true.
Proof.
  unfold PersonWithDataclass.__post_init__.
  now destruct (truthy (PersonWithDataclass.name p)).
Qed.

Lemma validate_name_ok_truthy (v : PyVal) :
  PersonWithAttrs.validate_name v = Ok tt -> truthy v = true.
Proof.
  unfold PersonWithAttrs.validate_name. now destruct (truthy v).
Qed.

(** C6, amended.  A record is validated once, when it is created: every
    record that creation returns satisfies the checks its variant makes.  In
    the dataclass and attrs variants the name is truthy (not empty); in the
    pydantic variant the name is not empty, the age is positive and the
    e-mail is one the e-mail validation returned; in the marshmallow variant
    the name is not empty, the age is positive and the e-mail is accepted.
    Records are not immutable: an assignment to an attribute replaces the
    field and validates nothing, so a record can come to violate these
    checks later. *)
Theorem created_records_are_valid (EmailStr : string -> option string)
    (Email : string -> bool) :
  (forall name age email p,
      PersonWithDataclass.__init__ name age email = Ok p ->
      truthy (PersonWithDataclass.name p) = true
      /\ PersonWithDataclass.__post_init__ p = Ok tt)
  /\ (forall name age email q,
        PersonWithAttrs.__init__ name age email = Ok q ->
        truthy (PersonWithAttrs.name q) = true
        /\ PersonWithAttrs.validate_name (PersonWithAttrs.name q) = Ok tt)
  /\ (forall n a e r,
        PersonWithPydantic.__init__ EmailStr n a e = Ok r ->
        PersonWithPydantic.name r <> "" /\ 0 < PersonWithPydantic.age r
        /\ EmailStr e = Some (PersonWithPydantic.email r))
  /\ (forall data data',
        PersonWithMarshmallow.load Email data = Ok data' ->
        PersonWithMarshmallow.name data' <> "" /\ 0 < PersonWithMarshmallow.age data'
        /\ Email (PersonWithMarshmallow.email data') = true).
Proof.
  split; [| split; [| split]].
  - intros name age email p Hp.
    pose proof (dataclass_created_valid name age email p Hp) as Hpost.
    split; [now apply post_init_ok_truthy | exact Hpost].
  - intros name age email q Hq.
    pose proof (attrs_created_valid name age email q Hq) as Hval.
    split; [now apply validate_name_ok_truthy | exact Hval].
  - intros n a e r.
    unfold PersonWithPydantic.__init__, PersonWithPydantic.validate_email,
      PersonWithPydantic.validate_name, PersonWithPydantic.name_must_not_be_empty,
      PersonWithPydantic.validate_age.
    destruct (String.eqb_spec n "") as [Hn|Hn]; destruct (Z.ltb_spec 0 a) as [Ha|Ha];
      destruct (EmailStr e) as [e'|]; simpl; intros Hr; try discriminate Hr.
    injection Hr as <-. simpl. now repeat split.
  - intros [n a e] data'.
    unfold PersonWithMarshmallow.load, PersonWithMarshmallow.field_errors,
      PersonWithMarshmallow.validate_name_field, PersonWithMarshmallow.validate_email_field,
      PersonWithMarshmallow.validate_age.
    simpl.
    destruct n as [|c n']; destruct (Email e) eqn:He; destruct (Z.leb_spec a 0) as [Ha|Ha];
      simpl; intros Hd; try discriminate Hd.
    injection Hd as <-. simpl. repeat split; [discriminate | exact Ha | exact He].
Qed.

Lemma created_records_are_valid_witness :
  PersonWithDataclass.__init__ (VStr "John") (Some (VInt 30)) (Some (VStr "a@example.com"))
  = Ok (PersonWithDataclass.mk (VStr "John") (VInt 30) (VStr "a@example.com"))
  /\ truthy (VStr "John") = true
  /\ PersonWithPydantic.__init__ sample_EmailStr "John" 30 "a@example.com"
     = Ok (PersonWithPydantic.mk "John" 30 "a@example.com")
  /\ ("John" <> "" /\ 0 < 30 /\ sample_EmailStr "a@example.com" = Some "a@example.com").
Proof.
  assert (Hp : PersonWithDataclass.__init__ (VStr "John") (Some (VInt 30))
                 (Some (VStr "a@example.com"))
               = Ok (PersonWithDataclass.mk (VStr "John") (VInt 30) (VStr "a@example.com")))
    by reflexivity.
  assert (Hr : PersonWithPydantic.__init__ sample_EmailStr "John" 30 "a@example.com"
               = Ok (PersonWithPydantic.mk "John" 30 "a@example.com")) by reflexivity.
  destruct (created_records_are_valid sample_EmailStr sample_Email)
    as [Hdata [_ [Hpyd _]]].
  split; [exact Hp |].
  split; [exact (proj1 (Hdata _ _ _ _ Hp)) |].
  split; [exact Hr | exact (Hpyd _ _ _ _ Hr)].
Defined.

(** ** C7: debug rendering *)

(** The dataclass and pydantic variants define [__repr__] themselves: the
    class name, then the three values separated by spaces, in parentheses. *)
Lemma dataclass_repr_format (p : PersonWithDataclass.t) :
  PersonWithDataclass.__repr__ p
  = "PersonWithDataclass(" ++ PersonWithDataclass.__str__ p ++ ")".
Proof.
  unfold PersonWithDataclass.__repr__, PersonWithDataclass.__str__.
  rewrite !append_assoc. reflexivity.
Qed.

Lemma pydantic_repr_format (p : PersonWithPydantic.t) :
  PersonWithPydantic.__repr__ p
  = "PersonWithPydantic(" ++ PersonWithPydantic.__str__ p ++ ")".
Proof.
  unfold PersonWithPydantic.__repr__, PersonWithPydantic.__str__.
  rewrite !append_assoc. reflexivity.
Qed.

(** C7, at the input where the attrs variant departs from it: the class
    defines no [__repr__], so the debug rendering is the one attrs
    generates, with attribute names and quoted texts, and not the class name
    followed by the space-joined values. *)
Theorem attrs_repr_differs :
  PersonWithAttrs.__init__ (VStr "John") (Some (VInt 30)) (Some (VStr "a@example.com"))
  = Ok (PersonWithAttrs.mk (VStr "John") (VInt 30) (VStr "a@example.com"))
  /\ PersonWithAttrs.__repr__
       (PersonWithAttrs.mk (VStr "John") (VInt 30) (VStr "a@example.com"))
     = "PersonWithAttrs(name='John', age=30, email='a@example.com')"
  /\ PersonWithAttrs.__repr__
       (PersonWithAttrs.mk (VStr "John") (VInt 30) (VStr "a@example.com"))
     <> "PersonWithAttrs(John 30 a@example.com)".
Proof.
  repeat split. discriminate.
Qed.

(** ** C8 and C10: the decorator [type_check] *)

Lemma args_match_no_types (args : list PyVal) : TypeCheck.args_match args [] = true.
Proof.
  unfold TypeCheck.args_match. now destruct args.
Qed.

Lemma combine_surplus {A B : Type} (l extra : list A) (l' : list B) :
  (List.length l' <= List.length l)%nat -> combine (l ++ extra) l' = combine l l'.
Proof.
  revert l'. induction l as [|x l IH]; intros [|y l'] Hlen; simpl in *;
    try reflexivity; try lia.
  - now destruct extra.
  - f_equal. apply IH. lia.
Qed.

Lemma combine_common_prefix {A B : Type} (l : list A) (l' : list B) :
  let m := Nat.min (List.length l) (List.length l') in
  combine l l' = combine (firstn m l) (firstn m l').
Proof.
  intros m. rewrite <- combine_firstn.
  symmetry. apply firstn_all2. rewrite length_combine. subst m. lia.
Qed.

(** Passing [None] for [follows] by hand is another matter than leaving it
    out: types can follow it, and a mismatch raises [TypeError] first. *)
Example explicit_none_with_types :
  TypeCheck.call unit
    (TypeCheck.type_check unit (fun _ _ => Ok true)
       (TypeCheck.call_positional (None : option string) [TInt])
       (TypeCheck.mkFunc unit "f" (fun _ _ w => (Ok VNone, w))))
    [VStr "x"] [] tt
  = (Raise (TypeError "Arguments must match specified types"), tt).
Proof. reflexivity. Qed.

(** C8. A function decorated by [type_check()] with [follows] left to its
    default raises [ValueError("Function name must match follows pattern")]
    on every call, whatever the arguments are; the decorated function is not
    run: the result does not depend on it and the world is as before. *)
Theorem default_follows_always_raises (World : Type)
    (re_match : string -> string -> result bool) (func : TypeCheck.PyFunc World)
    (args : list PyVal) (kwargs : TypeCheck.Kwargs) (w : World) :
  TypeCheck.call World
    (TypeCheck.type_check World re_match (TypeCheck.call_default) func) args kwargs w
  = (Raise (ValueError "Function name must match follows pattern"), w).
Proof.
  simpl. unfold TypeCheck.wrapper. rewrite args_match_no_types. reflexivity.
Qed.

(** C10. The type check of [type_check] looks at the first
    [min(len(args), len(types))] positional arguments only.  When these
    match, surplus positional arguments and keyword arguments of any type do
    not make the check fail: the wrapper goes on as if no types had been
    asked for. *)
Theorem type_check_covers_prefix (World : Type)
    (re_match : string -> string -> result bool) (follows : option string)
    (types : list PyType) (func : TypeCheck.PyFunc World)
    (args extra : list PyVal) (kwargs : TypeCheck.Kwargs) (w : World) :
  (let m := Nat.min (List.length args) (List.length types) in
   TypeCheck.args_match args types
   = TypeCheck.args_match (firstn m args) (firstn m types))
  /\ ((List.length types <= List.length args)%nat ->
      TypeCheck.args_match (args ++ extra) types = TypeCheck.args_match args types
      /\ (TypeCheck.args_match args types = true ->
          TypeCheck.wrapper World re_match follows types func (args ++ extra) kwargs w
          = TypeCheck.wrapper World re_match follows [] func (args ++ extra) kwargs w)).
Proof.
  split.
  - intros m. unfold TypeCheck.args_match.
    now rewrite (combine_common_prefix args types).
  - intros Hlen.
    assert (Hsame : TypeCheck.args_match (args ++ extra) types
                    = TypeCheck.args_match args types).
    { unfold TypeCheck.args_match. now rewrite combine_surplus. }
    split; [exact Hsame |].
    intros Hok. unfold TypeCheck.wrapper.
    now rewrite Hsame, Hok, args_match_no_types.
Qed.

Lemma type_check_covers_prefix_witness :
  (List.length [TInt] <= List.length [VInt 1])%nat
  /\ TypeCheck.args_match [VInt 1] [TInt] = true
  /\ TypeCheck.args_match [VInt 1; VStr "surplus"] [TInt] = true
  /\ TypeCheck.wrapper unit (fun _ _ => Ok true) (Some "f") [TInt]
       (TypeCheck.mkFunc unit "f" (fun args _ w => (Ok (VInt (Z.of_nat (List.length args))), w)))
       [VInt 1; VStr "surplus"] [("key", VNone)] tt
     = (Ok (VInt 2), tt).
Proof.
  assert (Hlen : (List.length [TInt] <= List.length [VInt 1])%nat) by (simpl; lia).
  assert (Hok : TypeCheck.args_match [VInt 1] [TInt] = true) by reflexivity.
  destruct (type_check_covers_prefix unit (fun _ _ => Ok true) (Some "f") [TInt]
              (TypeCheck.mkFunc unit "f"
                 (fun args _ w => (Ok (VInt (Z.of_nat (List.length args))), w)))
              [VInt 1] [VStr "surplus"] [("key", VNone)] tt) as [_ Hrest].
  destruct (Hrest Hlen) as [Hsame Hwrap].
  split; [exact Hlen | split; [exact Hok | split]].
  - exact (eq_trans Hsame Hok).
  - exact (eq_trans (Hwrap Hok) eq_refl).
Defined.

(** * Further properties of the code *)

(** ** The dataclass and attrs variants (lines 26-40, 81-93) *)

(** X1. The name check of the dataclass and attrs variants is Python's
    truth test, not a check for text.  The names [None], [False], [0] and
    [''] are refused with [ValueError("name must not be empty")], whatever
    age and e-mail are; [True], every integer but zero and every text but
    the empty one (blank texts included) create a record with that value
    stored as the name. *)
Theorem name_check_is_truth_test (age email : option PyVal) :
  (forall name, In name [VNone; VBool false; VInt 0; VStr ""] ->
      PersonWithDataclass.__init__ name age email
      = Raise (ValueError "name must not be empty")
      /\ PersonWithAttrs.__init__ name age email
         = Raise (ValueError "name must not be empty"))
  /\ (forall name,
        name = VBool true \/ (exists z, z <> 0 /\ name = VInt z)
        \/ (exists s, s <> "" /\ name = VStr s) ->
        PersonWithDataclass.__init__ name age email
        = Ok (PersonWithDataclass.mk name (or_default age (VInt 0))
                (or_default email (VStr "")))
        /\ PersonWithAttrs.__init__ name age email
           = Ok (PersonWithAttrs.mk name (or_default age (VInt 0))
                   (or_default email (VStr "")))).
Proof.
  split.
  - intros name Hin.
    assert (Ht : truthy name = false).
    { simpl in Hin. destruct Hin as [<-|[<-|[<-|[<-|[]]]]]; reflexivity. }
    split; [now apply dataclass_init_falsy | now apply attrs_init_falsy].
  - intros name Hname.
    assert (Ht : truthy name = true).
    { destruct Hname as [->|[[z [Hz ->]]|[s [Hs ->]]]].
      - reflexivity.
      - simpl. apply negb_true_iff. now apply Z.eqb_neq.
      - now apply truthy_text. }
    split; [now apply dataclass_init_ok | now apply attrs_init_ok].
Qed.

(** X2. The dataclass and the attrs variant behave alike on every input:
    both raise the same exception, or both create a record with the same
    three fields and the same display text. *)
Theorem dataclass_and_attrs_agree (name : PyVal) (age email : option PyVal) :
  match PersonWithDataclass.__init__ name age email,
        PersonWithAttrs.__init__ name age email with
  | Ok p, Ok q =>
      PersonWithDataclass.name p = PersonWithAttrs.name q
      /\ PersonWithDataclass.age p = PersonWithAttrs.age q
      /\ PersonWithDataclass.email p = PersonWithAttrs.email q
      /\ PersonWithDataclass.__str__ p = PersonWithAttrs.__str__ q
  | Raise e1, Raise e2 => e1 = e2
  | _, _ => False
  end.
Proof.
  destruct (truthy name) eqn:Ht.
  - rewrite (dataclass_init_ok name age email Ht), (attrs_init_ok name age email Ht).
    repeat split.
  - now rewrite (dataclass_init_falsy name age email Ht), (attrs_init_falsy name age email Ht).
Qed.

(** X3. A record created from a name alone renders with the defaults: the
    display text is the name, [0] and an empty e-mail, so it ends in a
    space; the dataclass debug text wraps the same. *)
Theorem name_only_rendering (n : string) :
  n <> "" ->
  (exists p, PersonWithDataclass.__init__ (VStr n) None None = Ok p
             /\ PersonWithDataclass.__str__ p = n ++ " 0 "
             /\ PersonWithDataclass.__repr__ p = "PersonWithDataclass(" ++ n ++ " 0 )")
  /\ (exists q, PersonWithAttrs.__init__ (VStr n) None None = Ok q
                /\ PersonWithAttrs.__str__ q = n ++ " 0 ").
Proof.
  intros Hn. apply truthy_text in Hn. split.
  - eexists. split; [now apply dataclass_init_ok |]. split; reflexivity.
  - eexists. split; [now apply attrs_init_ok | reflexivity].
Qed.

Lemma name_only_rendering_witness :
  "John" <> ""
  /\ (exists p, PersonWithDataclass.__init__ (VStr "John") None None = Ok p
                /\ PersonWithDataclass.__str__ p = "John 0 "
                /\ PersonWithDataclass.__repr__ p = "PersonWithDataclass(John 0 )")
  /\ (exists q, PersonWithAttrs.__init__ (VStr "John") None None = Ok q
                /\ PersonWithAttrs.__str__ q = "John 0 ").
Proof.
  assert (Hn : "John" <> "") by discriminate.
  split; [exact Hn | exact (name_only_rendering "John" Hn)].
Defined.

(** X4. In the dataclass and pydantic variants the debug text is the display
    text wrapped in the class name and parentheses, for every record. *)
Theorem repr_wraps_str (p : PersonWithDataclass.t) (r : PersonWithPydantic.t) :
  PersonWithDataclass.__repr__ p
  = PersonWithDataclass.__name__ ++ "(" ++ PersonWithDataclass.__str__ p ++ ")"
  /\ PersonWithPydantic.__repr__ r
     = PersonWithPydantic.__name__ ++ "(" ++ PersonWithPydantic.__str__ r ++ ")".
Proof.
  split.
  - unfold PersonWithDataclass.__repr__, PersonWithDataclass.__str__.
    now rewrite !append_assoc.
  - unfold PersonWithPydantic.__repr__, PersonWithPydantic.__str__.
    now rewrite !append_assoc.
Qed.

(** Both directions of "this failure is reported iff this condition holds",
    once the checks have been decided and the result computed. *)
Ltac blame_iff :=
  split;
  [ intros [exc [Hr Hrep]];
    first [ discriminate Hr
          | injection Hr as <-;
            first [ discriminate Hrep | assumption | reflexivity | lia
                  | repeat split; first [assumption | discriminate | lia] ] ]
  | intros H;
    first [ contradiction | discriminate H | lia
          | destruct H as (H1 & H2 & H3); first [congruence | lia]
          | eexists; split; reflexivity ] ].

(** ** The pydantic variant (lines 44-59) *)

(** X6. [PersonWithPydantic(...)] returns a record exactly when all three
    checks pass: the name is not empty, the age is positive and the library
    accepts the e-mail; the record then holds the name and age as given and
    the e-mail as the library returned it. *)
Theorem pydantic_create_iff (EmailStr : string -> option string)
    (n : string) (a : Z) (e : string) (p : PersonWithPydantic.t) :
  PersonWithPydantic.__init__ EmailStr n a e = Ok p
  <-> (n <> "" /\ 0 < a /\ EmailStr e = Some (PersonWithPydantic.email p)
       /\ PersonWithPydantic.name p = n /\ PersonWithPydantic.age p = a).
Proof.
  split.
  - unfold PersonWithPydantic.__init__, PersonWithPydantic.validate_email,
      PersonWithPydantic.validate_name, PersonWithPydantic.name_must_not_be_empty,
      PersonWithPydantic.validate_age.
    destruct (n =? "")%string eqn:Hn; destruct (0 <? a) eqn:Ha;
      destruct (EmailStr e) as [e'|] eqn:He; simpl; intros Hp; try discriminate Hp.
    injection Hp as <-. simpl.
    apply String.eqb_neq in Hn. apply Z.ltb_lt in Ha. now repeat split.
  - destruct p as [pn pa pe]. simpl. intros (Hn & Ha & He & -> & ->).
    now apply pydantic_init_ok.
Qed.

(** X7. A failed pydantic creation blames exactly the fields that are wrong:
    the error has an entry for [name] only when the name is empty, an entry
    for [age] only when the age is not positive, and as many entries as
    there are failing fields (all failures are reported at once). *)
Theorem pydantic_blames_failing_fields (EmailStr : string -> option string)
    (n : string) (a : Z) (e : string) :
  (fails_with (PersonWithPydantic.__init__ EmailStr n a e) EmptyNameError <-> n = "")
  /\ (fails_with (PersonWithPydantic.__init__ EmailStr n a e) NonPositiveAgeError
      <-> a <= 0)
  /\ (forall errs,
        PersonWithPydantic.__init__ EmailStr n a e = Raise (PydanticValidationError errs) ->
        List.length errs
        = ((if (n =? "")%string then 1 else 0)
           + (if (0 <? a)%Z then 0 else 1)
           + (match EmailStr e with Some _ => 0 | None => 1 end))%nat).
Proof.
  unfold fails_with, PersonWithPydantic.__init__, PersonWithPydantic.validate_email,
    PersonWithPydantic.validate_name, PersonWithPydantic.name_must_not_be_empty,
    PersonWithPydantic.validate_age.
  destruct (String.eqb_spec n "") as [Hn|Hn];
    destruct (Z.ltb_spec 0 a) as [Ha|Ha];
    destruct (EmailStr e) as [e'|]; simpl;
    (split; [blame_iff | split; [blame_iff |]]);
    intros errs Hr; first [discriminate Hr | injection Hr as <-; reflexivity].
Qed.

(** X8. The display text of a pydantic record shows the e-mail as the
    library stored it, which need not be the text that was passed in. *)
Theorem pydantic_renders_stored_email (EmailStr : string -> option string)
    (n : string) (a : Z) (e e' : string) :
  n <> "" -> 0 < a -> EmailStr e = Some e' ->
  exists p, PersonWithPydantic.__init__ EmailStr n a e = Ok p
            /\ PersonWithPydantic.__str__ p = n ++ " " ++ str_of_int a ++ " " ++ e'
            /\ PersonWithPydantic.__repr__ p
               = "PersonWithPydantic(" ++ n ++ " " ++ str_of_int a ++ " " ++ e' ++ ")".
Proof.
  intros Hn Ha He. eexists. split; [exact (pydantic_init_ok EmailStr n a e e' Hn Ha He) |].
  split; reflexivity.
Qed.

Lemma pydantic_renders_stored_email_witness :
  let lower := fun e : string =>
                 if (e =? "a@EXAMPLE.com")%string then Some "a@example.com" else None in
  "John" <> "" /\ 0 < 30 /\ lower "a@EXAMPLE.com" = Some "a@example.com"
  /\ exists p, PersonWithPydantic.__init__ lower "John" 30 "a@EXAMPLE.com" = Ok p
               /\ PersonWithPydantic.__str__ p = "John 30 a@example.com"
               /\ PersonWithPydantic.__repr__ p = "PersonWithPydantic(John 30 a@example.com)".
Proof.
  intros lower.
  assert (Hn : "John" <> "") by discriminate.
  assert (Ha : 0 < 30) by reflexivity.
  assert (He : lower "a@EXAMPLE.com" = Some "a@example.com") by reflexivity.
  split; [exact Hn | split; [exact Ha | split; [exact He |]]].
  exact (pydantic_renders_stored_email lower "John" 30 "a@EXAMPLE.com" "a@example.com"
           Hn Ha He).
Defined.

(** ** The marshmallow variant (lines 63-71) *)

(** X9. [load] returns data exactly when the name is not empty, the library
    accepts the e-mail and the age is positive; what it returns is the
    mapping it was given, so loading the result again succeeds. *)
Theorem marshmallow_load_iff (Email : string -> bool)
    (data data' : PersonWithMarshmallow.Data) :
  (PersonWithMarshmallow.load Email data = Ok data'
   <-> (data' = data /\ PersonWithMarshmallow.name data <> ""
        /\ Email (PersonWithMarshmallow.email data) = true
        /\ 0 < PersonWithMarshmallow.age data))
  /\ (PersonWithMarshmallow.load Email data = Ok data' ->
      PersonWithMarshmallow.load Email data' = Ok data').
Proof.
  assert (Hiff : PersonWithMarshmallow.load Email data = Ok data'
                 <-> (data' = data /\ PersonWithMarshmallow.name data <> ""
                      /\ Email (PersonWithMarshmallow.email data) = true
                      /\ 0 < PersonWithMarshmallow.age data)).
  { unfold PersonWithMarshmallow.load, PersonWithMarshmallow.field_errors,
      PersonWithMarshmallow.validate_name_field, PersonWithMarshmallow.validate_email_field,
      PersonWithMarshmallow.validate_age.
    destruct data as [n a e]. simpl.
    destruct n as [|c n']; destruct (Email e) eqn:He; destruct (Z.leb_spec a 0) as [Ha|Ha];
      simpl; split; try discriminate;
      try (intros (_ & Hn & Hm & Hpos); try congruence; lia).
    - intros Hd. injection Hd as <-. repeat split; [discriminate | exact Ha].
    - intros (-> & _). reflexivity. }
  split; [exact Hiff |].
  intros Hload. destruct (proj1 Hiff Hload) as [-> _]. exact Hload.
Qed.

(** X10. A failed [load] reports the empty name whenever the name is empty,
    but reports the age only when nothing else is wrong: an age that is not
    positive goes unreported as long as the name is empty or the e-mail is
    rejected. *)
Theorem marshmallow_age_error_is_masked (Email : string -> bool)
    (n : string) (a : Z) (e : string) :
  (fails_with (PersonWithMarshmallow.load Email (PersonWithMarshmallow.mkData n a e))
     EmptyNameError <-> n = "")
  /\ (fails_with (PersonWithMarshmallow.load Email (PersonWithMarshmallow.mkData n a e))
        NonPositiveAgeError
      <-> (a <= 0 /\ n <> "" /\ Email e = true)).
Proof.
  unfold fails_with, PersonWithMarshmallow.load, PersonWithMarshmallow.field_errors,
    PersonWithMarshmallow.validate_name_field, PersonWithMarshmallow.validate_email_field,
    PersonWithMarshmallow.validate_age.
  simpl.
  destruct n as [|c n']; destruct (Email e) eqn:He; destruct (Z.leb_spec a 0) as [Ha|Ha];
    simpl; split; blame_iff.
Qed.

(** X11. The error of a failed [load] has one of two shapes: the schema
    error "age must be positive" alone, or messages for [name] and/or
    [email] and nothing under ["_schema"]. *)
Theorem marshmallow_error_shapes (Email : string -> bool)
    (data : PersonWithMarshmallow.Data) (exc : PyExc) :
  PersonWithMarshmallow.load Email data = Raise exc ->
  exc = MarshmallowValidationError [("_schema", ["age must be positive"])]
  \/ (exists msgs, exc = MarshmallowValidationError msgs
                   /\ msgs <> []
                   /\ incl (map fst msgs) ["name"; "email"]
                   /\ ~ In "_schema" (map fst msgs)).
Proof.
  unfold PersonWithMarshmallow.load, PersonWithMarshmallow.field_errors,
    PersonWithMarshmallow.validate_name_field, PersonWithMarshmallow.validate_email_field,
    PersonWithMarshmallow.validate_age.
  destruct data as [n a e]. simpl.
  destruct n as [|c n']; destruct (Email e); destruct (a <=? 0); simpl;
    intros Hr; try discriminate Hr; injection Hr as <-;
    try (left; reflexivity);
    right; eexists; (split; [reflexivity |]);
    (split; [discriminate |]);
    (split; [intros x Hx; simpl in *; tauto
            | simpl; intros H; repeat (destruct H as [H|H]; try discriminate H); exact H]).
Qed.

Lemma marshmallow_error_shapes_witness :
  PersonWithMarshmallow.load sample_Email (PersonWithMarshmallow.mkData "" 0 "nobody")
  = Raise (MarshmallowValidationError
             [("name", ["Shorter than minimum length 1."]);
              ("email", ["Not a valid email address."])])
  /\ (MarshmallowValidationError
        [("name", ["Shorter than minimum length 1."]);
         ("email", ["Not a valid email address."])]
      = MarshmallowValidationError [("_schema", ["age must be positive"])]
      \/ (exists msgs,
            MarshmallowValidationError
              [("name", ["Shorter than minimum length 1."]);
               ("email", ["Not a valid email address."])]
            = MarshmallowValidationError msgs
            /\ msgs <> []
            /\ incl (map fst msgs) ["name"; "email"]
            /\ ~ In "_schema" (map fst msgs))).
Proof.
  assert (Hr : PersonWithMarshmallow.load sample_Email
                 (PersonWithMarshmallow.mkData "" 0 "nobody")
               = Raise (MarshmallowValidationError
                          [("name", ["Shorter than minimum length 1."]);
                           ("email", ["Not a valid email address."])])) by reflexivity.
  split; [exact Hr |].
  exact (marshmallow_error_shapes sample_Email
           (PersonWithMarshmallow.mkData "" 0 "nobody") _ Hr).
Defined.

(** ** Validating and unvalidating variants side by side *)

(** X12. The pydantic and marshmallow variants are the stricter ones: every
    input that either of them turns into a record is also accepted by the
    dataclass and attrs variants. *)
Theorem validated_input_is_accepted_everywhere (EmailStr : string -> option string)
    (Email : string -> bool) (n : string) (a : Z) (e : string) :
  (exists r, PersonWithPydantic.__init__ EmailStr n a e = Ok r)
  \/ (exists d, PersonWithMarshmallow.load Email (PersonWithMarshmallow.mkData n a e) = Ok d) ->
  PersonWithDataclass.__init__ (VStr n) (Some (VInt a)) (Some (VStr e))
  = Ok (PersonWithDataclass.mk (VStr n) (VInt a) (VStr e))
  /\ PersonWithAttrs.__init__ (VStr n) (Some (VInt a)) (Some (VStr e))
     = Ok (PersonWithAttrs.mk (VStr n) (VInt a) (VStr e)).
Proof.
  intros Hvalid.
  assert (Hn : n <> "").
  { destruct Hvalid as [[r Hr]|[d Hd]].
    - revert Hr. unfold PersonWithPydantic.__init__, PersonWithPydantic.validate_name,
        PersonWithPydantic.name_must_not_be_empty.
      destruct (String.eqb_spec n "") as [->|Hn]; [| intros _; exact Hn].
      simpl. destruct (PersonWithPydantic.validate_age a);
        destruct (PersonWithPydantic.validate_email EmailStr e); discriminate.
    - revert Hd. unfold PersonWithMarshmallow.load, PersonWithMarshmallow.field_errors,
        PersonWithMarshmallow.validate_name_field.
      destruct n as [|c n']; [| intros _; discriminate].
      simpl. discriminate. }
  apply truthy_text in Hn. split.
  - exact (dataclass_init_ok (VStr n) (Some (VInt a)) (Some (VStr e)) Hn).
  - exact (attrs_init_ok (VStr n) (Some (VInt a)) (Some (VStr e)) Hn).
Qed.

Lemma validated_input_is_accepted_everywhere_witness :
  ((exists r, PersonWithPydantic.__init__ sample_EmailStr "John" 30 "a@example.com" = Ok r)
   \/ (exists d, PersonWithMarshmallow.load sample_Email
                   (PersonWithMarshmallow.mkData "John" 30 "a@example.com") = Ok d))
  /\ PersonWithDataclass.__init__ (VStr "John") (Some (VInt 30)) (Some (VStr "a@example.com"))
     = Ok (PersonWithDataclass.mk (VStr "John") (VInt 30) (VStr "a@example.com"))
  /\ PersonWithAttrs.__init__ (VStr "John") (Some (VInt 30)) (Some (VStr "a@example.com"))
     = Ok (PersonWithAttrs.mk (VStr "John") (VInt 30) (VStr "a@example.com")).
Proof.
  assert (Hvalid :
    (exists r, PersonWithPydantic.__init__ sample_EmailStr "John" 30 "a@example.com" = Ok r)
    \/ (exists d, PersonWithMarshmallow.load sample_Email
                    (PersonWithMarshmallow.mkData "John" 30 "a@example.com") = Ok d)).
  { left. eexists. reflexivity. }
  split; [exact Hvalid |].
  exact (validated_input_is_accepted_everywhere sample_EmailStr sample_Email
           "John" 30 "a@example.com" Hvalid).
Defined.

(** ** More on [type_check] (lines 10-22) *)

Lemma args_match_cons (v : PyVal) (t : PyType) (args : list PyVal) (types : list PyType) :
  TypeCheck.args_match (v :: args) (t :: types)
  = isinstance v t && TypeCheck.args_match args types.
Proof. reflexivity. Qed.

(** X13. The type check of line 14 passes exactly when every positional
    argument that has a type at its position is an instance of that type;
    positions with no argument or no type do not count. *)
Theorem args_match_pointwise (args : list PyVal) (types : list PyType) :
  TypeCheck.args_match args types = true
  <-> (forall i v t, nth_error args i = Some v -> nth_error types i = Some t ->
                     isinstance v t = true).
Proof.
  revert types. induction args as [|x args IH]; intros types.
  - split; [| intros _; reflexivity].
    intros _ i v t Hv. destruct i; discriminate Hv.
  - destruct types as [|y types].
    + split; [| intros _; reflexivity].
      intros _ i v t _ Ht. destruct i; discriminate Ht.
    + rewrite args_match_cons, andb_true_iff, IH. split.
      * intros [Hx Hrest] [|i] v t Hv Ht; simpl in *.
        -- injection Hv as <-. injection Ht as <-. exact Hx.
        -- exact (Hrest i v t Hv Ht).
      * intros Hall. split.
        -- exact (Hall 0%nat x y eq_refl eq_refl).
        -- intros i v t Hv Ht. exact (Hall (S i) v t Hv Ht).
Qed.

(** X14. When some positional argument is not an instance of the type asked
    for at its position, the decorated call raises
    [TypeError("Arguments must match specified types")], whatever [follows]
    is and whatever [re] would say, and the function is not run. *)
Theorem mismatch_raises_type_error (World : Type)
    (re_match : string -> string -> result bool) (follows : option string)
    (types : list PyType) (func : TypeCheck.PyFunc World)
    (args : list PyVal) (kwargs : TypeCheck.Kwargs) (w : World)
    (i : nat) (v : PyVal) (t : PyType) :
  nth_error args i = Some v -> nth_error types i = Some t -> isinstance v t = false ->
  TypeCheck.call World
    (TypeCheck.type_check World re_match (TypeCheck.call_positional follows types) func)
    args kwargs w
  = (Raise (TypeError "Arguments must match specified types"), w).
Proof.
  intros Hv Ht Hinst. simpl. unfold TypeCheck.wrapper.
  destruct (TypeCheck.args_match args types) eqn:Hm; [| reflexivity].
  rewrite (proj1 (args_match_pointwise args types) Hm i v t Hv Ht) in Hinst.
  discriminate Hinst.
Qed.

Lemma mismatch_raises_type_error_witness :
  nth_error [VInt 1; VStr "two"] 1 = Some (VStr "two")
  /\ nth_error [TInt; TInt] 1 = Some TInt
  /\ isinstance (VStr "two") TInt = false
  /\ TypeCheck.call unit
       (TypeCheck.type_check unit (fun _ _ => Ok true)
          (TypeCheck.call_positional (Some "f") [TInt; TInt])
          (TypeCheck.mkFunc unit "f" (fun _ _ w => (Ok VNone, w))))
       [VInt 1; VStr "two"] [] tt
     = (Raise (TypeError "Arguments must match specified types"), tt).
Proof.
  assert (Hv : nth_error [VInt 1; VStr "two"] 1 = Some (VStr "two")) by reflexivity.
  assert (Ht : nth_error [TInt; TInt] 1 = Some TInt) by reflexivity.
  assert (Hi : isinstance (VStr "two") TInt = false) by reflexivity.
  split; [exact Hv | split; [exact Ht | split; [exact Hi |]]].
  exact (mismatch_raises_type_error unit (fun _ _ => Ok true) (Some "f") [TInt; TInt]
           (TypeCheck.mkFunc unit "f" (fun _ _ w => (Ok VNone, w)))
           [VInt 1; VStr "two"] [] tt 1%nat (VStr "two") TInt Hv Ht Hi).
Defined.

(** X15. When the positional arguments pass the type check and [follows] is
    a non-empty pattern that [re.match] finds at the start of the function's
    name, the decorated function is the function: same result, same effect,
    for the same arguments and keyword arguments. *)
Theorem passing_call_is_transparent (World : Type)
    (re_match : string -> string -> result bool) (c : TypeCheck.Call)
    (pattern : string) (func : TypeCheck.PyFunc World)
    (args : list PyVal) (kwargs : TypeCheck.Kwargs) (w : World) :
  TypeCheck.args_match args (TypeCheck.types_of c) = true ->
  TypeCheck.follows_of c = Some pattern -> pattern <> "" ->
  re_match pattern (TypeCheck.func_name World func) = Ok true ->
  TypeCheck.call World (TypeCheck.type_check World re_match c func) args kwargs w
  = TypeCheck.call World func args kwargs w.
Proof.
  intros Hm Hf Hp Hre. simpl. unfold TypeCheck.wrapper, TypeCheck.name_rejected.
  rewrite Hm, Hf. apply String.eqb_neq in Hp. now rewrite Hp, Hre.
Qed.

Lemma passing_call_is_transparent_witness :
  let c := TypeCheck.call_positional (Some "get_") [TStr] in
  let func := TypeCheck.mkFunc Z "get_total"
                (fun args _ w => (Ok (VInt (w + 1)), w + 1)) in
  let re_match := fun (_ _ : string) => Ok true in
  TypeCheck.args_match [VStr "x"] (TypeCheck.types_of c) = true
  /\ TypeCheck.follows_of c = Some "get_" /\ "get_" <> ""
  /\ re_match "get_" (TypeCheck.func_name Z func) = Ok true
  /\ TypeCheck.call Z (TypeCheck.type_check Z re_match c func) [VStr "x"] [] 41
     = (Ok (VInt 42), 42).
Proof.
  intros c func re_match.
  assert (Hm : TypeCheck.args_match [VStr "x"] (TypeCheck.types_of c) = true) by reflexivity.
  assert (Hf : TypeCheck.follows_of c = Some "get_") by reflexivity.
  assert (Hp : "get_" <> "") by discriminate.
  assert (Hre : re_match "get_" (TypeCheck.func_name Z func) = Ok true) by reflexivity.
  split; [exact Hm | split; [exact Hf | split; [exact Hp | split; [exact Hre |]]]].
  exact (passing_call_is_transparent Z re_match c "get_" func [VStr "x"] [] 41
           Hm Hf Hp Hre).
Defined.

(** X16. Conversely, a decorated call that returns a value went through
    every check: the positional arguments matched the types, [follows] was a
    non-empty pattern that matched the function's name, and the value and
    the effect are those of the function itself. *)
Theorem returned_value_passed_all_checks (World : Type)
    (re_match : string -> string -> result bool) (c : TypeCheck.Call)
    (func : TypeCheck.PyFunc World)
    (args : list PyVal) (kwargs : TypeCheck.Kwargs) (w w' : World) (v : PyVal) :
  TypeCheck.call World (TypeCheck.type_check World re_match c func) args kwargs w
  = (Ok v, w') ->
  TypeCheck.args_match args (TypeCheck.types_of c) = true
  /\ (exists pattern, TypeCheck.follows_of c = Some pattern /\ pattern <> ""
                      /\ re_match pattern (TypeCheck.func_name World func) = Ok true)
  /\ TypeCheck.call World func args kwargs w = (Ok v, w').
Proof.
  simpl. unfold TypeCheck.wrapper, TypeCheck.name_rejected, TypeCheck.raise.
  destruct (TypeCheck.args_match args (TypeCheck.types_of c)); [| discriminate].
  destruct (TypeCheck.follows_of c) as [pattern|]; [| discriminate].
  destruct (String.eqb_spec pattern "") as [->|Hp]; [discriminate |].
  destruct (re_match pattern (TypeCheck.func_name World func)) as [[|]|exc] eqn:Hre;
    simpl; try discriminate.
  intros Hcall. split; [reflexivity |]. split; [| exact Hcall].
  exists pattern. now repeat split.
Qed.

Lemma returned_value_passed_all_checks_witness :
  let c := TypeCheck.call_positional (Some "get_") [TStr] in
  let func := TypeCheck.mkFunc Z "get_total"
                (fun args _ w => (Ok (VInt (w + 1)), w + 1)) in
  let re_match := fun (_ _ : string) => Ok true in
  TypeCheck.call Z (TypeCheck.type_check Z re_match c func) [VStr "x"] [] 41
  = (Ok (VInt 42), 42)
  /\ TypeCheck.args_match [VStr "x"] (TypeCheck.types_of c) = true
  /\ TypeCheck.call Z func [VStr "x"] [] 41 = (Ok (VInt 42), 42).
Proof.
  intros c func re_match.
  assert (Hcall : TypeCheck.call Z (TypeCheck.type_check Z re_match c func) [VStr "x"] [] 41
                  = (Ok (VInt 42), 42)) by reflexivity.
  destruct (returned_value_passed_all_checks Z re_match c func [VStr "x"] [] 41 42
              (VInt 42) Hcall) as [Hm [_ Hf]].
  split; [exact Hcall | split; [exact Hm | exact Hf]].
Defined.

(** X17. A [follows] that is [None] or the empty pattern, however it was
    passed, lets no call through: once the type check has passed, the
    decorated call raises
    [ValueError("Function name must match follows pattern")] and the
    function is not run; [re.match] is not even asked. *)
Theorem empty_follows_lets_nothing_through (World : Type)
    (re_match : string -> string -> result bool) (c : TypeCheck.Call)
    (func : TypeCheck.PyFunc World)
    (args : list PyVal) (kwargs : TypeCheck.Kwargs) (w : World) :
  TypeCheck.follows_of c = None \/ TypeCheck.follows_of c = Some "" ->
  TypeCheck.args_match args (TypeCheck.types_of c) = true ->
  TypeCheck.call World (TypeCheck.type_check World re_match c func) args kwargs w
  = (Raise (ValueError "Function name must match follows pattern"), w).
Proof.
  intros Hf Hm. simpl. unfold TypeCheck.wrapper, TypeCheck.name_rejected.
  rewrite Hm. now destruct Hf as [-> | ->].
Qed.

Lemma empty_follows_lets_nothing_through_witness :
  let c := TypeCheck.call_positional (Some "") [TInt] in
  let func := TypeCheck.mkFunc unit "f" (fun _ _ w => (Ok VNone, w)) in
  let re_match := fun (_ _ : string) => Ok true in
  (TypeCheck.follows_of c = None \/ TypeCheck.follows_of c = Some "")
  /\ TypeCheck.args_match [VInt 1] (TypeCheck.types_of c) = true
  /\ TypeCheck.call unit (TypeCheck.type_check unit re_match c func) [VInt 1] [] tt
     = (Raise (ValueError "Function name must match follows pattern"), tt).
Proof.
  intros c func re_match.
  assert (Hf : TypeCheck.follows_of c = None \/ TypeCheck.follows_of c = Some "")
    by (right; reflexivity).
  assert (Hm : TypeCheck.args_match [VInt 1] (TypeCheck.types_of c) = true) by reflexivity.
  split; [exact Hf | split; [exact Hm |]].
  exact (empty_follows_lets_nothing_through unit re_match c func [VInt 1] [] tt Hf Hm).
Defined.

Lemma combine_surplus_right {A B : Type} (l : list A) (l' more : list B) :
  (List.length l <= List.length l')%nat -> combine l (l' ++ more) = combine l l'.
Proof.
  revert l'. induction l as [|x l IH]; intros [|y l'] Hlen; simpl in *;
    try reflexivity; try lia.
  f_equal. apply IH. lia.
Qed.

(** X18. Types beyond the number of positional arguments are never
    consulted: asking for more types changes nothing for a call that has no
    positional argument left to check.  In particular a call that passes
    everything by keyword is never stopped by the type check. *)
Theorem surplus_types_are_ignored (World : Type)
    (re_match : string -> string -> result bool) (follows : option string)
    (types more : list PyType) (func : TypeCheck.PyFunc World)
    (args : list PyVal) (kwargs : TypeCheck.Kwargs) (w : World) :
  (List.length args <= List.length types)%nat ->
  TypeCheck.call World
    (TypeCheck.type_check World re_match
       (TypeCheck.call_positional follows (types ++ more)) func) args kwargs w
  = TypeCheck.call World
      (TypeCheck.type_check World re_match (TypeCheck.call_positional follows types) func)
      args kwargs w.
Proof.
  intros Hlen. simpl. unfold TypeCheck.wrapper, TypeCheck.args_match.
  now rewrite combine_surplus_right.
Qed.

Lemma surplus_types_are_ignored_witness :
  let func := TypeCheck.mkFunc unit "f" (fun _ kwargs w => (Ok (VInt 7), w)) in
  let re_match := fun (_ _ : string) => Ok true in
  (List.length (@nil PyVal) <= List.length (@nil PyType))%nat
  /\ TypeCheck.call unit
       (TypeCheck.type_check unit re_match
          (TypeCheck.call_positional (Some "f") ([] ++ [TInt; TStr])) func)
       [] [("x", VStr "not an int")] tt
     = (Ok (VInt 7), tt).
Proof.
  intros func re_match.
  assert (Hlen : (List.length (@nil PyVal) <= List.length (@nil PyType))%nat)
    by (simpl; lia).
  split; [exact Hlen |].
  exact (eq_trans
           (surplus_types_are_ignored unit re_match (Some "f") [] [TInt; TStr] func
              [] [("x", VStr "not an int")] tt Hlen)
           eq_refl).
Defined.

(** X19. Decorating twice with the same [type_check(...)] is the same as
    decorating once: [@wraps] hands the function's name on, so the second
    layer repeats the checks of the first on the same name and arguments. *)
Theorem decorating_twice_is_decorating_once (World : Type)
    (re_match : string -> string -> result bool) (c : TypeCheck.Call)
    (func : TypeCheck.PyFunc World)
    (args : list PyVal) (kwargs : TypeCheck.Kwargs) (w : World) :
  TypeCheck.func_name World (TypeCheck.type_check World re_match c func)
  = TypeCheck.func_name World func
  /\ TypeCheck.call World
       (TypeCheck.type_check World re_match c
          (TypeCheck.type_check World re_match c func)) args kwargs w
     = TypeCheck.call World (TypeCheck.type_check World re_match c func) args kwargs w.
Proof.
  split; [reflexivity |].
  simpl. unfold TypeCheck.wrapper at 1. simpl.
  destruct (TypeCheck.args_match args (TypeCheck.types_of c)) eqn:Hm; simpl.
  - destruct (TypeCheck.name_rejected re_match (TypeCheck.follows_of c)
                (TypeCheck.func_name World func)) as [[|]|exc] eqn:Hname;
      unfold TypeCheck.wrapper; now rewrite Hm, Hname.
  - unfold TypeCheck.wrapper. now rewrite Hm.
Qed.

(** ** The generated debug text of the attrs variant *)





